(** * cid: Chinese identity-card numbers

    A shallow embedding of [src/cid/__init__.py]: the checksum validator
    [is_valid_cid], the extractors [extract_gender] and [extract_birthday],
    and the class [IdParser] with [__init__], [extract_region] and [parse].

    Conventions of the embedding.
    - A Python [str] is a [string]; its characters are the code points below
      256 (a Python 2 byte string, or text in that range).  In that range the
      characters that [int()] accepts are exactly ['0'] .. ['9'].  A
      one-character [str] obtained by indexing is modelled by its character.
      String literals that hold other characters (['男'], ['女'], the names in
      the region table) are kept as their UTF-8 bytes; the code only passes
      them on.
    - A Python [int] is a [Z].
    - A call that can raise returns a [res]: [Ok v] or [Raise e].
    - Dictionaries are objects of a heap, [gmap loc dict]; a method of
      [IdParser] is a function of the heap returning a result and the new
      heap. *)

From Stdlib Require Import ZArith Ascii String List Lia.
From stdpp Require Import base option gmap strings list fin_maps.

#[local] Open Scope Z_scope.

(** ** Python values, exceptions and strings *)

(** The exceptions the module can raise.  [SystemError] marks a reference
    to an object the heap does not hold; no well-formed heap reaches it. *)
Inductive exn : Type :=
| IndexError
| ValueError
| TypeError
| AttributeError
| StopIteration
| SystemError
| KeyError (key : string)
| IdParserError (msg : string).

Inductive res (A : Type) : Type :=
| Ok (v : A)
| Raise (e : exn).
Arguments Ok {A} v.
Arguments Raise {A} e.

(** [len(s)] *)
Definition len (s : string) : Z := Z.of_nat (String.length s).

(** [s[i]] for an integer [i]: a negative index counts from the end, an
    index out of range raises [IndexError]. *)
Definition str_index (s : string) (i : Z) : res ascii :=
  let j := if i <? 0 then i + len s else i in
  if (0 <=? j) && (j <? len s) then
    match String.get (Z.to_nat j) s with
    | Some c => Ok c
    | None => Raise IndexError
    end
  else Raise IndexError.

(** A bound of a slice, clipped to [0 .. len]. *)
Definition clip (n i : Z) : Z :=
  if i <? 0 then Z.max (i + n) 0 else Z.min i n.

(** [s[lo:hi]]; never raises. *)
Definition str_slice (s : string) (lo hi : Z) : string :=
  let a := clip (len s) lo in
  let b := clip (len s) hi in
  String.substring (Z.to_nat a) (Z.to_nat (b - a)) s.

(** [s[key]] for a [str] key: "string indices must be integers". *)
Definition str_subscript_str (s key : string) : res string :=
  Raise TypeError.

(** The characters of a string, as iteration yields them. *)
Definition chars (s : string) : list ascii := String.list_ascii_of_string s.

(** The builtins, under their Python names. *)
Module Py.

Definition bind {A B} (r : res A) (k : A -> res B) : res B :=
  match r with
  | Ok v => k v
  | Raise e => Raise e
  end.

(** [int(c)] for a one-character string. *)
Definition int (c : ascii) : res Z :=
  let n := Z.of_nat (nat_of_ascii c) in
  if (48 <=? n) && (n <=? 57) then Ok (n - 48) else Raise ValueError.

(** [map(f, l)], forced: the items in order, up to the first that raises. *)
Fixpoint map {A B} (f : A -> res B) (l : list A) : res (list B) :=
  match l with
  | [] => Ok []
  | x :: l' =>
      bind (f x) (fun y => bind (map f l') (fun ys => Ok (y :: ys)))
  end.

(** [sum(l)] *)
Definition sum (l : list Z) : Z := fold_left Z.add l 0.

(** [zip(a, b)] *)
Definition zip {A B} (a : list A) (b : list B) : list (A * B) := combine a b.

End Py.

Notation "x <- r ;; k" := (Py.bind r (fun x => k))
  (at level 100, r at next level, right associativity).

(** ** The functions of the module *)

(** What [log.warning] has been called with, then the outcome. *)
Definition logged (A : Type) : Type := (list string * res A)%type.

Definition salt : list Z := [7; 9; 10; 5; 8; 4; 2; 1; 6; 3; 7; 9; 10; 5; 8; 4; 2].
Definition check_code : string := "10X98765432".

Definition is_valid_cid (cid : string) : logged bool :=
  if len cid <? 18 then
    (["old version id have not check_code"], Ok true)
  else
    ([],
     products <- Py.map (fun x : ascii * Z => d <- Py.int (fst x) ;; Ok (d * snd x))
                        (Py.zip (chars (str_slice cid 0 17)) salt) ;;
     let idx := Py.sum products mod 11 in
     expected <- str_index check_code idx ;;
     given <- str_index cid 17 ;;
     Ok (Ascii.eqb expected given)).

Definition extract_gender (cid : string) : res string :=
  g_code <- (if len cid =? 18 then str_index cid 16 else str_index cid 14) ;;
  n <- Py.int g_code ;;
  Ok (if negb (n mod 2 =? 0) then "男" else "女").

Definition extract_birthday (cid : string) : res string :=
  if len cid =? 18 then
    Ok (str_slice cid 6 10 +:+ "-" +:+ str_slice cid 10 12 +:+ "-"
        +:+ str_slice cid 12 14)
  else
    yy <- str_subscript_str cid "6:8" ;;
    Ok ("19" +:+ yy +:+ "-" +:+ str_slice cid 8 10 +:+ "-"
        +:+ str_slice cid 10 12).

(** The branch of [is_valid_cid] for an identifier of 18 characters or more,
    as a function of its first 17 characters and of its 18th: the value the
    lemma [is_valid_cid_split] shows the function to return. *)
Definition products (cs : list ascii) (ws : list Z) : res (list Z) :=
  Py.map (fun x : ascii * Z => d <- Py.int (fst x) ;; Ok (d * snd x)) (Py.zip cs ws).

Definition check_body (body : string) (given : ascii) : res bool :=
  ps <- products (chars body) salt ;;
  expected <- str_index check_code (Py.sum ps mod 11) ;;
  Ok (Ascii.eqb expected given).

(** ** Dictionaries as heap objects *)

Definition loc : Type := positive.

Inductive val : Type :=
| VStr (s : string)
| VRef (l : loc).

Abbreviation dict := (gmap string val).
Abbreviation heap := (gmap loc (gmap string val)).

(** A method: from the heap to an outcome and the heap it leaves. *)
Definition M (A : Type) : Type := heap -> res A * heap.

Module Heap.

Definition ret {A} (v : A) : M A := fun h => (Ok v, h).

Definition raise {A} (e : exn) : M A := fun h => (Raise e, h).

Definition lift {A} (r : res A) : M A := fun h => (r, h).

Definition bind {A B} (m : M A) (k : A -> M B) : M B :=
  fun h =>
    match m h with
    | (Ok v, h') => k v h'
    | (Raise e, h') => (Raise e, h')
    end.

(** [try: body / except ...: handler]; the handler takes the exceptions
    its clause names and lets the others through. *)
Definition try_except {A} (body : M A) (handler : exn -> option (M A)) : M A :=
  fun h =>
    match body h with
    | (Ok v, h') => (Ok v, h')
    | (Raise e, h') =>
        match handler e with
        | Some m => m h'
        | None => (Raise e, h')
        end
    end.

(** A new dictionary object, at a reference nothing else holds. *)
Definition new_dict (d : dict) : M loc :=
  fun h => let l := fresh (dom h) in (Ok l, <[l := d]> h).

Definition deref (l : loc) : M dict :=
  fun h =>
    match h !! l with
    | Some d => (Ok d, h)
    | None => (Raise SystemError, h)
    end.

(** [d[k]] *)
Definition dict_getitem (l : loc) (k : string) : M val :=
  bind (deref l) (fun d =>
    match d !! k with
    | Some v => ret v
    | None => raise (KeyError k)
    end).

(** [d[k] = v] *)
Definition dict_setitem (l : loc) (k : string) (v : val) : M unit :=
  bind (deref l) (fun d h => (Ok tt, <[l := <[k := v]> d]> h)).

(** [v.copy()]: a shallow copy of the dictionary [v] refers to; a [str]
    has no such method. *)
Definition dict_copy (v : val) : M loc :=
  match v with
  | VRef l => bind (deref l) new_dict
  | VStr _ => raise AttributeError
  end.

(** [d.pop(k)] *)
Definition dict_pop (l : loc) (k : string) : M val :=
  bind (deref l) (fun d =>
    match d !! k with
    | Some v => fun h => (Ok v, <[l := delete k d]> h)
    | None => raise (KeyError k)
    end).

(** [dict(pairs)]: a later pair replaces an earlier one with its key. *)
Definition dict_of_pairs (pairs : list (string * val)) : dict :=
  fold_left (fun d kv => <[fst kv := snd kv]> d) pairs ∅.

(** [l[0]] on a list *)
Definition list_first {A} (l : list A) : res A :=
  match l with
  | x :: _ => Ok x
  | [] => Raise IndexError
  end.

End Heap.

Notation "x <~ m ;; k" := (Heap.bind m (fun x => k))
  (at level 100, m at next level, right associativity).

(** ** The class IdParser *)

Module IdParser.

Import Heap.

Record t : Type := { info_dict : loc }.

(** The dictionary comprehension of [__init__], one row after the other:
    [info[values[0]] = dict(zip(keys, values))]. *)
Fixpoint fill (info : loc) (keys : list string) (reader : list (list string))
  : M unit :=
  match reader with
  | [] => ret tt
  | values :: reader' =>
      k <~ lift (list_first values) ;;
      row <~ new_dict (dict_of_pairs (Py.zip keys (VStr <$> values))) ;;
      _ <~ dict_setitem info k (VRef row) ;;
      fill info keys reader'
  end.

(** [reader] is what [csv.reader(open(data_path))] yields: the rows of the
    table, each a list of fields, the header first. *)
Definition __init__ (reader : list (list string)) : M t :=
  match reader with
  | [] => raise StopIteration
  | keys :: reader' =>
      info <~ new_dict ∅ ;;
      _ <~ fill info keys reader' ;;
      ret {| info_dict := info |}
  end.

Definition extract_region (self : t) (cid : string) : M loc :=
  d <~ try_except
         (row <~ dict_getitem (info_dict self) (str_slice cid 0 6) ;;
          dict_copy row)
         (fun e =>
            match e with
            | KeyError _ => Some (raise (IdParserError "ID Error"))
            | _ => None
            end) ;;
  _ <~ dict_pop d "id" ;;
  ret d.

Definition parse (self : t) (cid : string) : M loc :=
  gender <~ lift (extract_gender cid) ;;
  birthday <~ lift (extract_birthday cid) ;;
  region <~ extract_region self cid ;;
  new_dict (dict_of_pairs [("gender", VStr gender);
                           ("birthday", VStr birthday);
                           ("region", VRef region)]).

(** The row the table holds for a region code, if it holds one. *)
Definition table_row (self : t) (h : heap) (code : string) : option dict :=
  tbl ← h !! info_dict self;
  v ← tbl !! code;
  match v with
  | VRef l => h !! l
  | VStr _ => None
  end.

(** Every entry of the table refers to a row, and the row has its ['id']
    field: what [__init__] establishes for a table whose header starts with
    ['id']. *)
Definition table_ok (info : loc) (h : heap) : Prop :=
  exists tbl,
    h !! info = Some tbl
    /\ forall code v, tbl !! code = Some v ->
         exists l row, v = VRef l /\ l <> info /\ h !! l = Some row
                       /\ is_Some (row !! "id").

End IdParser.

(** The table of the documentation's example, cut down to one row, the
    resolver [IdParser(...)] builds from it in an empty heap, and the heap
    it leaves. *)
Definition doc_table : list (list string) :=
  [ ["id"; "province"; "city"; "district"];
    ["360730"; "江西省"; "赣州市"; "宁都县"] ].

Definition doc_parser : IdParser.t := {| IdParser.info_dict := 1%positive |}.

Definition doc_row : dict :=
  <["district" := VStr "宁都县"]>
    (<["city" := VStr "赣州市"]>
       (<["province" := VStr "江西省"]> (<["id" := VStr "360730"]> ∅))).

Definition doc_heap : heap :=
  <[1%positive := {[ "360730" := VRef 2%positive ]}]> {[ 2%positive := doc_row ]}.

(** ** The checksum rule, as the specification words it *)

Module Spec.

Definition is_digit (c : ascii) : bool :=
  (48 <=? nat_of_ascii c)%nat && (nat_of_ascii c <=? 57)%nat.

(** The value of a decimal digit. *)
Definition digit (c : ascii) : Z := Z.of_nat (nat_of_ascii c) - 48.

(** The character at position [i], ['0'] past the end. *)
Definition char_at (s : string) (i : nat) : ascii :=
  default "0"%char (String.get i s).

(** The sum over [i] in [0..16] of [digit(cid[i]) * weight[i]]. *)
Definition weighted_sum (cid : string) : Z :=
  foldr (fun i acc => digit (char_at cid i) * nth i salt 0 + acc) 0 (seq 0 17).

(** ['10X98765432'[weighted_sum mod 11]] *)
Definition expected_check (cid : string) : option ascii :=
  String.get (Z.to_nat (weighted_sum cid mod 11)) "10X98765432".

(** The alphabet of the check character. *)
Definition check_alphabet : list ascii := chars "0123456789X".

(** An outcome that is an [IdParserError] whose message holds the region
    code. *)
Definition error_carries_code (r : res loc) (code : string) : Prop :=
  exists msg, r = Raise (IdParserError msg)
              /\ is_Some (String.index 0 code msg).

End Spec.

(** ** Auxiliary notions for the statements *)

Module Aux.

(** The string [s] with the character at position [i] replaced by [c]. *)
Fixpoint set_char (i : nat) (c : ascii) (s : string) : string :=
  match s with
  | EmptyString => EmptyString
  | String a s' =>
      match i with
      | O => String c s'
      | S i' => String a (set_char i' c s')
      end
  end.

(** The weighted sum of the digits [cs]. *)
Definition wsum (cs : list ascii) : Z :=
  Py.sum (zip_with (fun c w => Spec.digit c * w) cs salt).

(** The last row of the table whose first field is [code]. *)
Fixpoint find_row (code : string) (reader : list (list string))
  : option (list string) :=
  match reader with
  | [] => None
  | values :: reader' =>
      match find_row code reader' with
      | Some found => Some found
      | None =>
          match values with
          | first :: _ => if decide (first = code) then Some values else None
          | [] => None
          end
      end
  end.

(** The dictionary [__init__] stores for a row: [dict(zip(keys, values))]. *)
Definition row_dict (keys values : list string) : dict :=
  Heap.dict_of_pairs (Py.zip keys (VStr <$> values)).

(** The table at [info] refers to dictionaries the heap holds, other than
    itself. *)
Definition refs_ok (info : loc) (h : heap) : Prop :=
  exists tbl,
    h !! info = Some tbl
    /\ forall code v, tbl !! code = Some v ->
         exists l, v = VRef l /\ l <> info /\ is_Some (h !! l).

End Aux.

(** * Properties *)

(** ** Strings *)

Section strings.

Implicit Types s t : string.

Lemma len_nonneg s : 0 <= len s.
Proof. unfold len. lia. Qed.

Lemma length_append s t :
  String.length (s +:+ t) = (String.length s + String.length t)%nat.
Proof. induction s as [|c s IH]; simpl; [done | by rewrite IH]. Qed.

Lemma substring_prefix s t :
  String.substring 0 (String.length s) (s +:+ t) = s.
Proof.
  induction s as [|c s IH]; simpl.
  - by destruct t.
  - by rewrite IH.
Qed.

Lemma get_append_end s c t :
  String.get (String.length s) (s +:+ String c t) = Some c.
Proof. induction s as [|c' s IH]; simpl; done. Qed.

Lemma split_last s n :
  String.length s = S n ->
  exists body c, s = body +:+ String c "" /\ String.length body = n.
Proof.
  revert s. induction n as [|n IH]; intros [|c s] Hlen; simplify_eq/=.
  - destruct s; [|done]. by exists ""%string, c.
  - destruct (IH s Hlen) as (body & c' & -> & Hbody).
    exists (String c body), c'. simpl. by rewrite Hbody.
Qed.

Lemma get_Some_lt s i c : String.get i s = Some c -> (i < String.length s)%nat.
Proof.
  revert i. induction s as [|c' s IH]; intros [|i] H; simplify_eq/=; [lia|].
  apply IH in H. lia.
Qed.

Lemma get_lt_Some s i : (i < String.length s)%nat -> is_Some (String.get i s).
Proof.
  revert i. induction s as [|c' s IH]; intros [|i] H; simpl in *; try lia.
  - by eexists.
  - apply IH. lia.
Qed.

(** Indexing within range gives the character at that position. *)
Lemma str_index_get s i c :
  0 <= i -> String.get (Z.to_nat i) s = Some c -> str_index s i = Ok c.
Proof.
  intros Hi Hget. pose proof (get_Some_lt _ _ _ Hget) as Hlt.
  unfold str_index, len.
  destruct (Z.ltb_spec i 0); [lia|].
  destruct (Z.leb_spec 0 i); [|lia].
  destruct (Z.ltb_spec i (Z.of_nat (String.length s))); [|lia].
  simpl. by rewrite Hget.
Qed.

Lemma str_index_in_range s i :
  0 <= i < len s ->
  exists c, String.get (Z.to_nat i) s = Some c /\ str_index s i = Ok c.
Proof.
  intros [Hi Hlt]. unfold len in Hlt.
  destruct (get_lt_Some s (Z.to_nat i)) as [c Hc]; [lia|].
  exists c. split; [done|]. by apply str_index_get.
Qed.

(** A slice with bounds inside the string is the library's substring. *)
Lemma str_slice_substring s lo hi :
  0 <= lo <= hi -> hi <= len s ->
  str_slice s lo hi = String.substring (Z.to_nat lo) (Z.to_nat (hi - lo)) s.
Proof.
  intros [Hlo Hhi] Hlen. unfold str_slice, clip.
  destruct (Z.ltb_spec lo 0); [lia|].
  destruct (Z.ltb_spec hi 0); [lia|].
  by rewrite !Z.min_l by lia.
Qed.

End strings.

(** ** Digits *)

Lemma int_digit c :
  Spec.is_digit c = true -> Py.int c = Ok (Spec.digit c).
Proof.
  unfold Spec.is_digit, Py.int, Spec.digit. intros [H1 H2]%andb_prop.
  apply Nat.leb_le in H1, H2.
  destruct (Z.leb_spec 48 (Z.of_nat (nat_of_ascii c))); [|lia].
  destruct (Z.leb_spec (Z.of_nat (nat_of_ascii c)) 57); [|lia].
  done.
Qed.

Lemma int_not_digit c :
  Spec.is_digit c = false -> Py.int c = Raise ValueError.
Proof.
  unfold Spec.is_digit, Py.int. intros H.
  destruct (Z.leb_spec 48 (Z.of_nat (nat_of_ascii c)));
    destruct (Z.leb_spec (Z.of_nat (nat_of_ascii c)) 57); simpl; try done.
  apply andb_false_iff in H as [H|H]; apply Nat.leb_gt in H; lia.
Qed.

Lemma digit_range c : Spec.is_digit c = true -> 0 <= Spec.digit c <= 9.
Proof.
  unfold Spec.is_digit, Spec.digit. intros [H1 H2]%andb_prop.
  apply Nat.leb_le in H1, H2. lia.
Qed.

(** ** The checksum *)

Lemma is_valid_cid_split body c :
  String.length body = 17%nat ->
  is_valid_cid (body +:+ String c "") = ([], check_body body c).
Proof.
  intros Hlen.
  assert (Hl : len (body +:+ String c "") = 18).
  { unfold len. rewrite length_append, Hlen. done. }
  unfold is_valid_cid. rewrite Hl. simpl (18 <? 18).
  rewrite str_slice_substring by lia.
  change (Z.to_nat 0) with 0%nat. change (Z.to_nat (17 - 0)) with 17%nat.
  rewrite <- Hlen at 1. rewrite substring_prefix.
  rewrite (str_index_get _ 17 c); [done | lia |].
  change (Z.to_nat 17) with 17%nat. rewrite <- Hlen. apply get_append_end.
Qed.

Lemma products_digits cs ws :
  Forall (fun c => Spec.is_digit c = true) cs ->
  products cs ws = Ok (zip_with (fun c w => Spec.digit c * w) cs ws).
Proof.
  unfold products, Py.zip. intros H. revert ws.
  induction H as [|c cs Hc _ IH]; intros [|w ws]; simpl; try done.
  by rewrite (int_digit c Hc), IH.
Qed.

Lemma products_ok_digits cs ws ps :
  (length cs <= length ws)%nat ->
  products cs ws = Ok ps ->
  Forall (fun c => Spec.is_digit c = true) cs.
Proof.
  unfold products, Py.zip. revert ws ps.
  induction cs as [|c cs IH]; intros ws ps Hlen Hps; [constructor|].
  destruct ws as [|w ws]; simpl in *; [lia|].
  destruct (Spec.is_digit c) eqn:Hc.
  - rewrite (int_digit c Hc) in Hps. simpl in Hps.
    destruct (Py.map _ (combine cs ws)) as [ps'|] eqn:Hps'; [|done].
    constructor; [done|]. apply (IH ws ps'); [lia | done].
  - by rewrite (int_not_digit c Hc) in Hps.
Qed.

(** A string of 17 characters, character by character. *)
Ltac explode17 body H :=
  do 17 (destruct body as [|? body]; [discriminate H|]);
  destruct body; [clear H | discriminate H].

Lemma weighted_sum_zip body c :
  String.length body = 17%nat ->
  Spec.weighted_sum (body +:+ String c "")
  = Py.sum (zip_with (fun c w => Spec.digit c * w) (chars body) salt).
Proof.
  intros Hlen. explode17 body Hlen.
  unfold Spec.weighted_sum, Py.sum, Spec.char_at, salt. simpl. lia.
Qed.

Lemma index_mod_11 n : 0 <= n mod 11 < len check_code.
Proof. change (len check_code) with 11. apply Z.mod_pos_bound. lia. Qed.

(** With 17 digits in front, the validator compares the 18th character
    with the check character of the specification. *)
Lemma check_body_spec body :
  String.length body = 17%nat ->
  Forall (fun c => Spec.is_digit c = true) (chars body) ->
  exists e, forall c,
    Spec.expected_check (body +:+ String c "") = Some e
    /\ check_body body c = Ok (Ascii.eqb e c).
Proof.
  intros Hlen Hdig.
  destruct (str_index_in_range check_code _ (index_mod_11
    (Py.sum (zip_with (fun c w => Spec.digit c * w) (chars body) salt))))
    as (e & Hget & Hidx).
  exists e. intros c. unfold check_body, Spec.expected_check.
  rewrite (products_digits _ _ Hdig). simpl Py.bind.
  rewrite (weighted_sum_zip _ _ Hlen).
  split; [exact Hget|]. by rewrite Hidx.
Qed.

Lemma check_body_ok_digits body c b :
  String.length body = 17%nat ->
  check_body body c = Ok b ->
  Forall (fun c => Spec.is_digit c = true) (chars body).
Proof.
  intros Hlen. unfold check_body.
  destruct (products (chars body) salt) as [ps|] eqn:Hps; [|done].
  intros _. apply (products_ok_digits _ salt ps); [|done].
  explode17 body Hlen. simpl. lia.
Qed.

Lemma get_chars s i : chars s !! i = String.get i s.
Proof.
  revert i. induction s as [|c s IH]; intros [|i]; simpl; try done.
Qed.

Lemma get_append_l s t i :
  (i < String.length s)%nat -> String.get i (s +:+ t) = String.get i s.
Proof.
  revert i. induction s as [|c s IH]; intros [|i] H; simpl in *; try lia; [done|].
  apply IH. lia.
Qed.

Lemma length_chars s : length (chars s) = String.length s.
Proof. induction s as [|c s IH]; simpl; [done | by rewrite IH]. Qed.

Lemma str_slice_body body c :
  String.length body = 17%nat -> str_slice (body +:+ String c "") 0 17 = body.
Proof.
  intros Hlen.
  rewrite str_slice_substring; [| lia |].
  - change (Z.to_nat 0) with 0%nat. change (Z.to_nat (17 - 0)) with 17%nat.
    rewrite <- Hlen. apply substring_prefix.
  - unfold len. rewrite length_append, Hlen. done.
Qed.

Lemma digits_of_prefix body c :
  String.length body = 17%nat ->
  (forall i, (i < 17)%nat ->
     exists d, String.get i (body +:+ String c "") = Some d
               /\ Spec.is_digit d = true) ->
  Forall (fun c => Spec.is_digit c = true) (chars body).
Proof.
  intros Hlen Hdig. apply Forall_lookup. intros i d Hi.
  assert (i < 17)%nat as Hlt.
  { apply lookup_lt_Some in Hi. rewrite length_chars in Hi. lia. }
  destruct (Hdig i Hlt) as (d' & Hget & Hd').
  rewrite get_append_l, <- get_chars, Hi in Hget by lia. by simplify_eq.
Qed.

(** C1: for an identifier of 18 characters whose first 17 are decimal
    digits, [is_valid_cid] returns, without raising, whether the character
    ['10X98765432'[(sum of digit(cid[i]) * weight[i]) mod 11]] is the 18th
    character [cid[17]]; characters are compared as they are, so a lower-case
    ['x'] is not ['X']. *)
Theorem is_valid_cid_checksum (cid : string) :
  String.length cid = 18%nat ->
  (forall i, (i < 17)%nat ->
     exists c, String.get i cid = Some c /\ Spec.is_digit c = true) ->
  exists b, is_valid_cid cid = ([], Ok b)
            /\ (b = true <-> Spec.expected_check cid = String.get 17 cid).
Proof.
  intros Hlen Hdig.
  destruct (split_last cid 17 Hlen) as (body & c & -> & Hbody).
  pose proof (digits_of_prefix body c Hbody Hdig) as Hall.
  destruct (check_body_spec body Hbody Hall) as (e & He).
  destruct (He c) as [Hexp Hchk].
  exists (Ascii.eqb e c). rewrite (is_valid_cid_split body c Hbody), Hchk, Hexp.
  split; [done|]. rewrite <- Hbody, get_append_end.
  rewrite Ascii.eqb_eq. split; [by intros -> | by intros [= ->]].
Qed.

Lemma is_valid_cid_checksum_witness :
  exists b, is_valid_cid "11010519491231002X" = ([], Ok b)
            /\ (b = true <-> Spec.expected_check "11010519491231002X"
                             = String.get 17 "11010519491231002X").
Proof.
  apply (is_valid_cid_checksum "11010519491231002X"); [reflexivity|].
  intros i Hi.
  do 17 (destruct i as [|i]; [eexists; split; reflexivity|]). lia.
Defined.

Example is_valid_cid_accepts : is_valid_cid "11010519491231002X" = ([], Ok true).
Proof. reflexivity. Qed.

Example is_valid_cid_lower_case_x :
  is_valid_cid "11010519491231002x" = ([], Ok false).
Proof. reflexivity. Qed.

(** C6: on a string of fewer than 18 characters, whatever they are,
    [is_valid_cid] returns true and does not raise; it only logs the
    warning. *)
Theorem is_valid_cid_short (cid : string) :
  (String.length cid < 18)%nat ->
  is_valid_cid cid = (["old version id have not check_code"], Ok true).
Proof.
  intros Hlen. unfold is_valid_cid, len.
  destruct (Z.ltb_spec (Z.of_nat (String.length cid)) 18); [done | lia].
Qed.

Lemma is_valid_cid_short_witness :
  is_valid_cid "not a number!" = (["old version id have not check_code"], Ok true).
Proof. apply (is_valid_cid_short "not a number!"). simpl. lia. Defined.

(** C7: an identifier of 18 characters that [is_valid_cid] accepts is
    rejected once its last character is replaced by a character of
    [0-9X] other than the expected check character. *)
Theorem is_valid_cid_flip (cid : string) (c : ascii) :
  String.length cid = 18%nat ->
  snd (is_valid_cid cid) = Ok true ->
  In c Spec.check_alphabet ->
  Spec.expected_check cid <> Some c ->
  is_valid_cid (str_slice cid 0 17 +:+ String c "") = ([], Ok false).
Proof.
  intros Hlen Hvalid _ Hne.
  destruct (split_last cid 17 Hlen) as (body & c17 & -> & Hbody).
  rewrite (is_valid_cid_split body c17 Hbody) in Hvalid. simpl in Hvalid.
  pose proof (check_body_ok_digits body c17 true Hbody Hvalid) as Hall.
  destruct (check_body_spec body Hbody Hall) as (e & He).
  destruct (He c17) as [Hexp _]. destruct (He c) as [_ Hchk].
  rewrite (str_slice_body body c17 Hbody), (is_valid_cid_split body c Hbody), Hchk.
  do 2 f_equal. apply Ascii.eqb_neq. intros ->. by rewrite Hexp in Hne.
Qed.

Lemma is_valid_cid_flip_witness :
  is_valid_cid (str_slice "11010519491231002X" 0 17 +:+ "7") = ([], Ok false).
Proof.
  apply (is_valid_cid_flip "11010519491231002X" "7"%char).
  - reflexivity.
  - reflexivity.
  - simpl. tauto.
  - discriminate.
Defined.

(** ** Gender *)

(** C8: [extract_gender] reads the character at index 16 of an identifier
    of length 18 and the character at index 14 of one of length 15; when
    that character is a digit it returns the male value for an odd digit and
    the female value for an even one. *)
Theorem extract_gender_position (cid : string) (c : ascii) :
  (String.length cid = 18%nat /\ String.get 16 cid = Some c)
  \/ (String.length cid = 15%nat /\ String.get 14 cid = Some c) ->
  Spec.is_digit c = true ->
  extract_gender cid = Ok (if Z.odd (Spec.digit c) then "男" else "女").
Proof.
  intros Hpos Hc. unfold extract_gender, len.
  assert (forall n, (if negb (n mod 2 =? 0) then "男" else "女")
                    = (if Z.odd n then "男" else "女")) as Hodd.
  { intros n. rewrite Zmod_odd. by destruct (Z.odd n). }
  destruct Hpos as [[-> Hget] | [-> Hget]]; simpl (_ =? _).
  - rewrite (str_index_get cid 16 c); [| lia | done].
    simpl. rewrite (int_digit c Hc). simpl. by rewrite Hodd.
  - rewrite (str_index_get cid 14 c); [| lia | done].
    simpl. rewrite (int_digit c Hc). simpl. by rewrite Hodd.
Qed.

Lemma extract_gender_position_witness :
  extract_gender "360730198601011121" = Ok "女"
  /\ extract_gender "360730860101111" = Ok "男".
Proof.
  split.
  - apply (extract_gender_position "360730198601011121" "2"%char);
      [left; split; reflexivity | reflexivity].
  - apply (extract_gender_position "360730860101111" "1"%char);
      [right; split; reflexivity | reflexivity].
Defined.

(** ** Birthday *)

(** C9: on an identifier of length 18, whatever its characters,
    [extract_birthday] returns [cid[6:10] + "-" + cid[10:12] + "-" +
    cid[12:14]]; on ["360730198601011111"] that is ["1986-01-01"]. *)
Theorem extract_birthday_18 (cid : string) :
  String.length cid = 18%nat ->
  extract_birthday cid
  = Ok (String.substring 6 4 cid +:+ "-" +:+ String.substring 10 2 cid
        +:+ "-" +:+ String.substring 12 2 cid).
Proof.
  intros Hlen. unfold extract_birthday.
  assert (len cid = 18) as Hl by (unfold len; lia).
  rewrite Hl. simpl (18 =? 18).
  by rewrite !str_slice_substring by lia.
Qed.

Lemma extract_birthday_18_witness :
  extract_birthday "360730198601011111" = Ok "1986-01-01"
  /\ extract_birthday "360730199913321111" = Ok "1999-13-32".
Proof.
  split.
  - apply (extract_birthday_18 "360730198601011111"). reflexivity.
  - apply (extract_birthday_18 "360730199913321111"). reflexivity.
Defined.

(** On every other length the function raises: the subscript of the
    legacy branch is the string ['6:8'], not a slice. *)
Lemma extract_birthday_not_18 (cid : string) :
  String.length cid <> 18%nat -> extract_birthday cid = Raise TypeError.
Proof.
  intros Hlen. unfold extract_birthday, len.
  destruct (Z.eqb_spec (Z.of_nat (String.length cid)) 18); [lia | done].
Qed.

(** C2: on the 15-digit identifier ["360730860101111"], whose year, month
    and day digits are 86, 01 and 01, [extract_birthday] raises [TypeError]
    where ["1986-01-01"] is expected. *)
Theorem extract_birthday_legacy_raises :
  extract_birthday "360730860101111" = Raise TypeError.
Proof. reflexivity. Qed.

(** ** The region table *)

Section region.

Import Heap IdParser.

Implicit Types (self : IdParser.t) (h : heap) (row tbl : dict).

Lemma table_row_Some self h code row :
  table_row self h code = Some row <->
  exists tbl l, h !! info_dict self = Some tbl
                /\ tbl !! code = Some (VRef l) /\ h !! l = Some row.
Proof.
  unfold table_row. split.
  - destruct (h !! info_dict self) as [tbl|] eqn:Htbl; simpl; [|done].
    destruct (tbl !! code) as [[?|l]|] eqn:Hcode; simpl; try done.
    intros Hrow. by exists tbl, l.
  - intros (tbl & l & -> & Hcode & Hrow). simpl. by rewrite Hcode.
Qed.

Lemma fresh_None h : h !! fresh (dom h) = None.
Proof. apply not_elem_of_dom, is_fresh. Qed.

Lemma extract_region_found self cid h row :
  table_row self h (str_slice cid 0 6) = Some row ->
  is_Some (row !! "id") ->
  extract_region self cid h
  = (Ok (fresh (dom h)), <[fresh (dom h) := delete "id" row]> h).
Proof.
  intros (tbl & l & Htbl & Hcode & Hrow)%table_row_Some [v Hid].
  unfold extract_region, try_except, dict_getitem, dict_copy, dict_pop,
    Heap.bind, deref, new_dict, ret.
  rewrite Htbl, Hcode, Hrow. simpl.
  rewrite lookup_insert_eq, Hid. by rewrite insert_insert_eq.
Qed.

Lemma extract_region_not_found self cid h tbl :
  h !! info_dict self = Some tbl ->
  tbl !! str_slice cid 0 6 = None ->
  extract_region self cid h = (Raise (IdParserError "ID Error"), h).
Proof.
  intros Htbl Hcode.
  unfold extract_region, try_except, dict_getitem, Heap.bind, deref, raise.
  by rewrite Htbl, Hcode.
Qed.

Lemma table_row_frame self h later code row :
  (forall l, is_Some (h !! l) -> later !! l = h !! l) ->
  table_row self h code = Some row ->
  table_row self later code = Some row.
Proof.
  intros Hsame (tbl & l & Htbl & Hcode & Hrow)%table_row_Some.
  apply table_row_Some. exists tbl, l.
  rewrite !Hsame by (by eexists). done.
Qed.

Lemma str_slice_from_0 s hi :
  0 <= hi -> str_slice s 0 hi = String.substring 0 (Z.to_nat hi) s.
Proof.
  intros Hhi. unfold str_slice, clip. simpl (0 <? 0).
  destruct (Z.ltb_spec hi 0); [lia|].
  pose proof (len_nonneg s). rewrite (Z.min_l 0) by lia.
  rewrite Z.sub_0_r. change (Z.to_nat 0) with 0%nat.
  unfold len. rewrite Z2Nat.inj_min, Nat2Z.id.
  generalize (Z.to_nat hi). clear. intros n. revert n.
  induction s as [|c s IH]; intros [|n]; simpl; try done.
  by rewrite IH.
Qed.

Lemma substring_ext n s t :
  (forall i, (i < n)%nat -> String.get i s = String.get i t) ->
  String.substring 0 n s = String.substring 0 n t.
Proof.
  revert s t. induction n as [|n IH]; intros s t Hget.
  - by destruct s, t.
  - pose proof (Hget 0%nat ltac:(lia)) as H0.
    destruct s as [|a s], t as [|b t]; simpl in *; simplify_eq; [done|].
    f_equal. apply IH. intros i Hi. apply (Hget (S i)). lia.
Qed.

(** C3: when the first 6 characters of the identifier are a key of the
    table and the row has its primary-key field ['id'], [extract_region]
    returns a new dictionary that holds the fields of the row other than
    ['id'] and leaves every other object as it was.  The dictionary is not
    an object of the table: in any later heap in which the objects the first
    call found are unchanged, whatever has been written into the returned
    dictionary, a call for the same identifier returns the same fields
    again, in another new dictionary. *)
Theorem extract_region_fresh_copy self cid h row :
  table_row self h (str_slice cid 0 6) = Some row ->
  is_Some (row !! "id") ->
  exists d,
    extract_region self cid h = (Ok d, <[d := delete "id" row]> h)
    /\ h !! d = None
    /\ (forall k, delete "id" row !! k
                  = if decide (k = "id") then None else row !! k)
    /\ forall later : heap,
         (forall l, is_Some (h !! l) -> later !! l = h !! l) ->
         exists d',
           extract_region self cid later
           = (Ok d', <[d' := delete "id" row]> later)
           /\ later !! d' = None.
Proof.
  intros Hrow Hid. exists (fresh (dom h)).
  split; [by apply extract_region_found|].
  split; [apply fresh_None|].
  split.
  { intros k. case_decide as Hk; [subst; apply lookup_delete_eq|].
    by apply lookup_delete_ne. }
  intros later Hsame. exists (fresh (dom later)).
  split; [|apply fresh_None].
  apply extract_region_found; [|done]. by apply (table_row_frame self h).
Qed.

Lemma extract_region_fresh_copy_witness :
  exists d,
    extract_region doc_parser "360730198601011111" doc_heap
    = (Ok d, <[d := delete "id" doc_row]> doc_heap)
    /\ doc_heap !! d = None
    /\ (forall k, delete "id" doc_row !! k
                  = if decide (k = "id") then None else doc_row !! k)
    /\ forall later : heap,
         (forall l, is_Some (doc_heap !! l) -> later !! l = doc_heap !! l) ->
         exists d',
           extract_region doc_parser "360730198601011111" later
           = (Ok d', <[d' := delete "id" doc_row]> later)
           /\ later !! d' = None.
Proof.
  apply (extract_region_fresh_copy doc_parser "360730198601011111" doc_heap doc_row).
  - reflexivity.
  - exists (VStr "360730"). reflexivity.
Defined.

(** The documentation's example: the region of ["360730198601011111"],
    then the same call after the returned dictionary has been emptied. *)
Example extract_region_doc :
  extract_region doc_parser "360730198601011111" doc_heap
  = (Ok 3%positive,
     <[3%positive := <["district" := VStr "宁都县"]>
                       (<["city" := VStr "赣州市"]>
                          (<["province" := VStr "江西省"]> ∅))]> doc_heap).
Proof. vm_compute. reflexivity. Qed.

Example extract_region_after_mutation :
  extract_region doc_parser "360730198601011111" (<[3%positive := ∅]> doc_heap)
  = (Ok 4%positive,
     <[4%positive := <["district" := VStr "宁都县"]>
                       (<["city" := VStr "赣州市"]>
                          (<["province" := VStr "江西省"]> ∅))]>
       (<[3%positive := ∅]> doc_heap)).
Proof. vm_compute. reflexivity. Qed.

(** C4 (amended): when the first 6 characters of the identifier are not a
    key of the table, [extract_region] raises [IdParserError] with the fixed
    message ['ID Error'], in place of the [KeyError] of the lookup, and
    leaves the heap as it was. *)
Theorem extract_region_unknown self cid h tbl :
  h !! info_dict self = Some tbl ->
  tbl !! str_slice cid 0 6 = None ->
  extract_region self cid h = (Raise (IdParserError "ID Error"), h).
Proof. apply extract_region_not_found. Qed.

Lemma extract_region_unknown_witness :
  extract_region doc_parser "999999198601011111" doc_heap
  = (Raise (IdParserError "ID Error"), doc_heap).
Proof.
  apply (extract_region_unknown doc_parser "999999198601011111" doc_heap
           {[ "360730" := VRef 2%positive ]}); reflexivity.
Defined.

(** C4 as stated fails: the error raised for the unknown code ["999999"]
    does not hold that code. *)
Lemma extract_region_error_omits_code :
  ~ Spec.error_carries_code
      (fst (extract_region doc_parser "999999198601011111" doc_heap))
      (str_slice "999999198601011111" 0 6).
Proof.
  rewrite (extract_region_not_found doc_parser "999999198601011111" doc_heap
             {[ "360730" := VRef 2%positive ]}) by reflexivity.
  intros (msg & [= <-] & [n Hn]). discriminate Hn.
Qed.

(** C10: two identifiers with the same characters at positions 0 to 5
    (or the same shorter string) get the same outcome from [extract_region]
    in the same heap: the same new dictionary with the same fields, or the
    same exception. *)
Theorem extract_region_prefix_only self cid1 cid2 h :
  (forall i, (i < 6)%nat -> String.get i cid1 = String.get i cid2) ->
  extract_region self cid1 h = extract_region self cid2 h.
Proof.
  intros Hget. unfold extract_region.
  rewrite !str_slice_from_0 by lia. change (Z.to_nat 6) with 6%nat.
  by rewrite (substring_ext 6 cid1 cid2 Hget).
Qed.

Lemma extract_region_prefix_only_witness :
  extract_region doc_parser "360730198601011111" doc_heap
  = extract_region doc_parser "360730860101111" doc_heap.
Proof.
  apply (extract_region_prefix_only doc_parser
           "360730198601011111" "360730860101111" doc_heap).
  intros i Hi. do 6 (destruct i as [|i]; [reflexivity|]). lia.
Defined.

(** ** parse *)

Lemma parse_steps self cid h g b d h' :
  extract_gender cid = Ok g ->
  extract_birthday cid = Ok b ->
  extract_region self cid h = (Ok d, h') ->
  parse self cid h
  = (Ok (fresh (dom h')),
     <[fresh (dom h') := <["region" := VRef d]>
                           (<["birthday" := VStr b]>
                              (<["gender" := VStr g]> ∅))]> h').
Proof.
  intros Hg Hb Hr. unfold parse, Heap.bind, lift.
  by rewrite Hg, Hb, Hr.
Qed.

(** C5: when [extract_gender], [extract_birthday] and [extract_region]
    succeed on an identifier, [parse] returns a new dictionary whose fields
    ['gender'], ['birthday'] and ['region'] are their three results; no
    hypothesis on [is_valid_cid] is needed. *)
Theorem parse_combines self cid h g b d h' :
  extract_gender cid = Ok g ->
  extract_birthday cid = Ok b ->
  extract_region self cid h = (Ok d, h') ->
  exists p record,
    parse self cid h = (Ok p, <[p := record]> h')
    /\ h' !! p = None
    /\ record !! "gender" = Some (VStr g)
    /\ record !! "birthday" = Some (VStr b)
    /\ record !! "region" = Some (VRef d)
    /\ dom record = {[ "gender"; "birthday"; "region" ]}.
Proof.
  intros Hg Hb Hr. eexists _, _.
  split; [by apply parse_steps|].
  split; [apply fresh_None|].
  repeat split; done.
Qed.

Lemma parse_combines_witness :
  exists p record,
    parse doc_parser "360730198601011111" doc_heap
    = (Ok p, <[p := record]> (<[3%positive := delete "id" doc_row]> doc_heap))
    /\ (<[3%positive := delete "id" doc_row]> doc_heap) !! p = None
    /\ record !! "gender" = Some (VStr "男")
    /\ record !! "birthday" = Some (VStr "1986-01-01")
    /\ record !! "region" = Some (VRef 3%positive)
    /\ dom record = {[ "gender"; "birthday"; "region" ]}.
Proof.
  apply (parse_combines doc_parser "360730198601011111" doc_heap
           "男" "1986-01-01" 3%positive
           (<[3%positive := delete "id" doc_row]> doc_heap)).
  - reflexivity.
  - reflexivity.
  - vm_compute. reflexivity.
Defined.

(** [parse] succeeds on the identifier of the documentation, which
    [is_valid_cid] rejects, and on one on which [is_valid_cid] raises. *)
Example parse_bad_checksum :
  is_valid_cid "360730198601011111" = ([], Ok false)
  /\ fst (parse doc_parser "360730198601011111" doc_heap) = Ok 4%positive.
Proof. split; [reflexivity | vm_compute; reflexivity]. Qed.

Example parse_unchecked_characters :
  is_valid_cid "3607301986010?1111" = ([], Raise ValueError)
  /\ fst (parse doc_parser "3607301986010?1111" doc_heap) = Ok 4%positive.
Proof. split; [reflexivity | vm_compute; reflexivity]. Qed.

(** On a legacy identifier [parse] raises what [extract_birthday] raises. *)
Example parse_legacy :
  fst (parse doc_parser "360730860101111" doc_heap) = Raise TypeError.
Proof. vm_compute. reflexivity. Qed.

(** ** The constructor *)

Example init_doc_table : __init__ doc_table ∅ = (Ok doc_parser, doc_heap).
Proof. vm_compute. reflexivity. Qed.

Lemma bind_Ok {A B} (m : M A) (k : A -> M B) h v h' :
  Heap.bind m k h = (Ok v, h') ->
  exists a h1, m h = (Ok a, h1) /\ k a h1 = (Ok v, h').
Proof.
  unfold Heap.bind. destruct (m h) as [[a|e] h1]; [|done].
  intros Hk. by exists a, h1.
Qed.

Lemma dict_of_pairs_first k v pairs :
  is_Some (dict_of_pairs ((k, v) :: pairs) !! k).
Proof.
  unfold dict_of_pairs. simpl.
  assert (forall acc : dict, is_Some (acc !! k) ->
            is_Some (fold_left (fun d kv => <[kv.1 := kv.2]> d) pairs acc !! k))
    as Hacc.
  { induction pairs as [|[k' v'] pairs IH]; intros acc Hk; simpl; [done|].
    apply IH. rewrite lookup_insert_is_Some. destruct (decide (k' = k)); auto. }
  apply Hacc. rewrite lookup_insert_eq. by eexists.
Qed.

Lemma fill_table_ok info ks reader h h' :
  table_ok info h ->
  fill info ("id" :: ks) reader h = (Ok tt, h') ->
  table_ok info h'.
Proof.
  revert h. induction reader as [|values reader IH]; intros h Hok Hfill.
  - simpl in Hfill. unfold ret in Hfill. by simplify_eq.
  - simpl in Hfill.
    apply bind_Ok in Hfill as (k & h0 & Hk & Hfill).
    destruct values as [|v0 vs]; [done|]. unfold lift in Hk. simplify_eq/=.
    apply bind_Ok in Hfill as (l & h1 & Hl & Hfill).
    unfold new_dict in Hl. simplify_eq/=.
    apply bind_Ok in Hfill as ([] & h2 & Hset & Hfill).
    apply (IH h2); [|done]. clear IH Hfill.
    destruct Hok as (tbl & Htbl & Hrows).
    assert (fresh (dom h0) <> info) as Hne.
    { intros <-. by rewrite fresh_None in Htbl. }
    unfold dict_setitem, Heap.bind, deref in Hset.
    rewrite lookup_insert_ne, Htbl in Hset by done. simplify_eq/=.
    eexists. split; [apply lookup_insert_eq|].
    intros code v Hv. destruct (decide (code = k)) as [->|Hcode].
    + rewrite lookup_insert_eq in Hv. simplify_eq.
      eexists _, _. split; [done|]. split; [done|].
      rewrite lookup_insert_ne, lookup_insert_eq by done.
      split; [done|]. apply dict_of_pairs_first.
    + rewrite lookup_insert_ne in Hv by done.
      destruct (Hrows code v Hv) as (l & row & -> & Hl & Hrow & Hid).
      exists l, row. split; [done|]. split; [done|]. split; [|done].
      rewrite !lookup_insert_ne; [done | | done].
      intros <-. by rewrite fresh_None in Hrow.
Qed.

Lemma table_ok_empty h : table_ok (fresh (dom h)) (<[fresh (dom h) := ∅]> h).
Proof.
  exists ∅. split; [apply lookup_insert_eq|]. intros code v Hv.
  by rewrite lookup_empty in Hv.
Qed.

(** A resolver built from a table whose header starts with ['id'] has a
    row with an ['id'] field behind every code. *)
Lemma init_table_ok ks rows h self h' :
  __init__ (("id" :: ks) :: rows) h = (Ok self, h') ->
  table_ok (info_dict self) h'.
Proof.
  intros Hinit. simpl in Hinit.
  apply bind_Ok in Hinit as (info & h1 & Hinfo & Hinit).
  apply bind_Ok in Hinit as ([] & h2 & Hfill & Hret).
  unfold ret in Hret. unfold new_dict in Hinfo. simplify_eq/=.
  apply (fill_table_ok _ ks rows _ _ (table_ok_empty h) Hfill).
Qed.

Lemma table_ok_row self h code row :
  table_ok (info_dict self) h ->
  table_row self h code = Some row ->
  is_Some (row !! "id").
Proof.
  intros (tbl & Htbl & Hrows) (tbl' & l & Htbl' & Hcode & Hrow)%table_row_Some.
  simplify_eq. destruct (Hrows code _ Hcode) as (l' & row' & ? & _ & Hrow' & Hid).
  by simplify_eq.
Qed.

(** Without the ['id'] field in the row, the [KeyError] of [pop] gets
    out. *)
Example extract_region_row_without_id :
  fst (extract_region doc_parser "360730198601011111"
         (<[2%positive := {[ "province" := VStr "江西省" ]}]> doc_heap))
  = Raise (KeyError "id").
Proof. vm_compute. reflexivity. Qed.

End region.

Example is_valid_cid_doc :
  is_valid_cid "360730198601011111" = ([], Ok false).
Proof. reflexivity. Qed.

Example extract_gender_doc :
  extract_gender "360730198601011111" = Ok "男".
Proof. reflexivity. Qed.

Example extract_birthday_doc :
  extract_birthday "360730198601011111" = Ok "1986-01-01".
Proof. reflexivity. Qed.

(** * Further properties *)

(** ** The validator on any identifier of 18 characters or more *)

Lemma append_assoc (s t u : string) : (s +:+ t) +:+ u = s +:+ (t +:+ u).
Proof.
  induction s as [|c s IH]; [done|].
  change (String c ((s +:+ t) +:+ u) = String c (s +:+ (t +:+ u))).
  by rewrite IH.
Qed.

Lemma split_nth (s : string) (n : nat) :
  (n < String.length s)%nat ->
  exists body c rest, s = body +:+ String c rest /\ String.length body = n.
Proof.
  revert s. induction n as [|n IH]; intros [|a s] Hlen; simpl in *; try lia.
  - by exists ""%string, a, s.
  - destruct (IH s ltac:(lia)) as (body & c & rest & -> & Hbody).
    exists (String a body), c, rest. simpl. by rewrite Hbody.
Qed.

Lemma is_valid_cid_split_tail body c rest :
  String.length body = 17%nat ->
  is_valid_cid (body +:+ String c rest) = ([], check_body body c).
Proof.
  intros Hlen.
  assert (Hl : 18 <= len (body +:+ String c rest)).
  { unfold len. rewrite length_append, Hlen. simpl. lia. }
  unfold is_valid_cid.
  destruct (Z.ltb_spec (len (body +:+ String c rest)) 18); [lia|].
  rewrite str_slice_from_0 by lia. change (Z.to_nat 17) with 17%nat.
  rewrite <- Hlen at 1. rewrite substring_prefix.
  rewrite (str_index_get _ 17 c); [done | lia |].
  change (Z.to_nat 17) with 17%nat. rewrite <- Hlen. apply get_append_end.
Qed.

(** X2: [is_valid_cid] reads the first 18 characters only: whatever
    follows an identifier of 18 characters, the outcome is that of the
    identifier alone. *)
Theorem is_valid_cid_ignores_tail (cid rest : string) :
  String.length cid = 18%nat ->
  is_valid_cid (cid +:+ rest) = is_valid_cid cid.
Proof.
  intros Hlen. destruct (split_last cid 17 Hlen) as (body & c & -> & Hbody).
  rewrite append_assoc. change (String c "" +:+ rest) with (String c rest).
  by rewrite (is_valid_cid_split_tail body c rest Hbody),
    (is_valid_cid_split body c Hbody).
Qed.

Lemma is_valid_cid_ignores_tail_witness :
  is_valid_cid ("11010519491231002X" +:+ "-not-read") = is_valid_cid "11010519491231002X".
Proof. apply (is_valid_cid_ignores_tail "11010519491231002X" "-not-read"). reflexivity. Defined.

Lemma products_raise cs ws i c :
  cs !! i = Some c ->
  (i < length ws)%nat ->
  Spec.is_digit c = false ->
  products cs ws = Raise ValueError.
Proof.
  unfold products, Py.zip. revert ws i.
  induction cs as [|a cs IH]; intros ws i Hi Hlt Hc; [done|].
  destruct ws as [|w ws]; simpl in *; [lia|].
  destruct (Spec.is_digit a) eqn:Ha.
  - rewrite (int_digit a Ha). simpl.
    destruct i as [|i]; simpl in Hi; [congruence|].
    rewrite (IH ws i Hi); [done | lia | done].
  - by rewrite (int_not_digit a Ha).
Qed.

(** X1: on 18 characters or more, a character among the first 17 that
    is not a decimal digit makes [is_valid_cid] raise [ValueError]; it does
    not return false. *)
Theorem is_valid_cid_non_digit (cid : string) (i : nat) (c : ascii) :
  (18 <= String.length cid)%nat ->
  (i < 17)%nat ->
  String.get i cid = Some c ->
  Spec.is_digit c = false ->
  is_valid_cid cid = ([], Raise ValueError).
Proof.
  intros Hlen Hi Hget Hc.
  destruct (split_nth cid 17 ltac:(lia)) as (body & c17 & rest & -> & Hbody).
  rewrite (is_valid_cid_split_tail body c17 rest Hbody). f_equal.
  unfold check_body.
  rewrite (products_raise (chars body) salt i c); [done | | simpl; lia | done].
  rewrite get_chars. by rewrite get_append_l in Hget by lia.
Qed.

Lemma is_valid_cid_non_digit_witness :
  is_valid_cid "3607301986010?1111" = ([], Raise ValueError).
Proof.
  apply (is_valid_cid_non_digit "3607301986010?1111" 13 "?"%char).
  - simpl. lia.
  - lia.
  - reflexivity.
  - reflexivity.
Defined.

Lemma check_code_alphabet i e :
  String.get i check_code = Some e -> In e Spec.check_alphabet.
Proof.
  do 11 (destruct i as [|i]; [intros [= <-]; simpl; tauto|]). done.
Qed.

(** X3: for 17 digits there is one character, and it is one of
    [0123456789X], that [is_valid_cid] accepts as the 18th; with any other
    18th character it returns false. *)
Theorem is_valid_cid_unique_check (body : string) :
  String.length body = 17%nat ->
  Forall (fun c => Spec.is_digit c = true) (chars body) ->
  exists c, In c Spec.check_alphabet
            /\ forall c', is_valid_cid (body +:+ String c' "")
                          = ([], Ok (Ascii.eqb c c')).
Proof.
  intros Hlen Hdig. destruct (check_body_spec body Hlen Hdig) as (e & He).
  exists e. split.
  - destruct (He "0"%char) as [Hexp _]. apply (check_code_alphabet _ _ Hexp).
  - intros c'. destruct (He c') as [_ Hchk].
    by rewrite (is_valid_cid_split body c' Hlen), Hchk.
Qed.

Lemma is_valid_cid_unique_check_witness :
  exists c, In c Spec.check_alphabet
            /\ forall c', is_valid_cid ("11010519491231002" +:+ String c' "")
                          = ([], Ok (Ascii.eqb c c')).
Proof.
  apply (is_valid_cid_unique_check "11010519491231002"); [reflexivity|].
  repeat constructor.
Defined.

(** ** One wrong digit is always detected *)

Lemma digit_inj c d : Spec.digit c = Spec.digit d -> c = d.
Proof.
  unfold Spec.digit. intros H.
  rewrite <- (ascii_nat_embedding c), <- (ascii_nat_embedding d).
  f_equal. lia.
Qed.

Lemma check_code_inj i j e :
  String.get i check_code = Some e -> String.get j check_code = Some e -> i = j.
Proof.
  intros Hi Hj.
  do 11 (destruct i as [|i];
         [do 11 (destruct j as [|j]; [simpl in *; congruence|]); done|]).
  done.
Qed.

Lemma set_char_append_l i c s t :
  (i < String.length s)%nat ->
  Aux.set_char i c (s +:+ t) = Aux.set_char i c s +:+ t.
Proof.
  revert i. induction s as [|a s IH]; intros [|i] Hi; simpl in *; try lia;
    [done|].
  change (String a (Aux.set_char i c (s +:+ t))
          = String a (Aux.set_char i c s +:+ t)).
  rewrite IH; [done | lia].
Qed.

Lemma length_set_char i c s :
  String.length (Aux.set_char i c s) = String.length s.
Proof.
  revert i. induction s as [|a s IH]; intros [|i]; simpl; try done.
  by rewrite IH.
Qed.

Lemma chars_set_char i c s :
  (i < String.length s)%nat -> chars (Aux.set_char i c s) = <[i := c]> (chars s).
Proof.
  revert i. induction s as [|a s IH]; intros [|i] Hi; simpl in *; try lia;
    [done|].
  rewrite IH; [done | lia].
Qed.

Lemma fold_add l a : fold_left Z.add l a = a + fold_left Z.add l 0.
Proof.
  revert a. induction l as [|y l IH]; intros a; simpl; [lia|].
  rewrite (IH (a + y)), (IH (0 + y)). lia.
Qed.

Lemma sum_cons x l : Py.sum (x :: l) = x + Py.sum l.
Proof. unfold Py.sum. simpl. apply fold_add. Qed.

Lemma weighted_insert cs ws i d d' w :
  cs !! i = Some d ->
  ws !! i = Some w ->
  Py.sum (zip_with (fun c w => Spec.digit c * w) (<[i := d']> cs) ws)
  = Py.sum (zip_with (fun c w => Spec.digit c * w) cs ws)
    + (Spec.digit d' - Spec.digit d) * w.
Proof.
  revert ws i. induction cs as [|a cs IH]; intros [|w0 ws] [|i] Hc Hw;
    simplify_eq/=.
  - rewrite !sum_cons. lia.
  - rewrite !sum_cons, (IH ws i Hc Hw). lia.
Qed.

(** A product of two numbers that are not multiples of 11 is not one
    either. *)
Lemma mod11_sep B m delta :
  -10 <= m <= 10 -> m <> 0 -> -9 <= delta <= 9 -> delta <> 0 ->
  (B + delta * m) mod 11 <> B mod 11.
Proof.
  intros Hm Hm0 Hdelta Hne Heq.
  assert ((delta * m) mod 11 = 0) as Hmod.
  { replace (delta * m) with ((B + delta * m) - B) by lia.
    by rewrite Zminus_mod, Heq, Z.sub_diag. }
  clear Heq.
  assert (exists k, (k < 19)%nat /\ delta = Z.of_nat k - 9) as (k & Hk & ->).
  { exists (Z.to_nat (delta + 9)). lia. }
  assert (exists j, (j < 21)%nat /\ m = Z.of_nat j - 10) as (j & Hj & ->).
  { exists (Z.to_nat (m + 10)). lia. }
  do 19 (destruct k as [|k];
         [do 21 (destruct j as [|j]; [by (done || lia)|]); lia|]).
  lia.
Qed.

Lemma salt_range i w : salt !! i = Some w -> 1 <= w <= 10.
Proof.
  do 17 (destruct i as [|i]; [intros [= <-]; lia|]). done.
Qed.

Lemma salt_adjacent i w w' :
  salt !! i = Some w -> salt !! S i = Some w' -> w <> w'.
Proof.
  do 16 (destruct i as [|i]; [intros [= <-] [= <-]; lia|]).
  destruct i; done.
Qed.

(** An accepted identifier is rejected once its first 17 digits are
    replaced by digits whose weighted sum lies in another class modulo 11. *)
Lemma check_body_other_sum body body' c :
  String.length body = 17%nat ->
  check_body body c = Ok true ->
  Forall (fun c => Spec.is_digit c = true) (chars body') ->
  Aux.wsum (chars body') mod 11 <> Aux.wsum (chars body) mod 11 ->
  check_body body' c = Ok false.
Proof.
  unfold Aux.wsum. intros Hbody Hvalid Hall' Hsep.
  pose proof (check_body_ok_digits body c true Hbody Hvalid) as Hall.
  revert Hvalid. unfold check_body.
  rewrite !products_digits by done. simpl Py.bind.
  pose proof (index_mod_11 (Py.sum (zip_with (fun c w => Spec.digit c * w)
                                      (chars body) salt))) as H1.
  pose proof (index_mod_11 (Py.sum (zip_with (fun c w => Spec.digit c * w)
                                      (chars body') salt))) as H2.
  destruct (str_index_in_range check_code _ H1) as (e & Hge & ->).
  destruct (str_index_in_range check_code _ H2) as (e' & Hge' & ->).
  simpl. intros [= Heq%Ascii.eqb_eq]. subst c. f_equal.
  apply Ascii.eqb_neq. intros ->. apply Hsep.
  pose proof (check_code_inj _ _ _ Hge Hge') as Hidx. lia.
Qed.

(** X4: an identifier of 18 characters that [is_valid_cid] accepts is
    rejected once one of its first 17 digits is replaced by another
    digit. *)
Theorem is_valid_cid_detects_substitution (cid : string) (i : nat) (d d' : ascii) :
  String.length cid = 18%nat ->
  snd (is_valid_cid cid) = Ok true ->
  (i < 17)%nat ->
  String.get i cid = Some d ->
  Spec.is_digit d' = true ->
  d' <> d ->
  is_valid_cid (Aux.set_char i d' cid) = ([], Ok false).
Proof.
  intros Hlen Hvalid Hi Hget Hd' Hne.
  destruct (split_last cid 17 Hlen) as (body & c & -> & Hbody).
  rewrite (is_valid_cid_split body c Hbody) in Hvalid. simpl in Hvalid.
  pose proof (check_body_ok_digits body c true Hbody Hvalid) as Hall.
  rewrite get_append_l in Hget by lia.
  assert (Spec.is_digit d = true) as Hd.
  { rewrite Forall_lookup in Hall. apply (Hall i). by rewrite get_chars. }
  rewrite set_char_append_l by lia.
  rewrite is_valid_cid_split by (by rewrite length_set_char).
  f_equal. apply (check_body_other_sum body); [done | done | |].
  { rewrite chars_set_char by lia. by apply Forall_insert. }
  destruct (lookup_lt_is_Some_2 salt i) as [w Hw]; [simpl; lia|].
  unfold Aux.wsum. rewrite chars_set_char by lia.
  rewrite (weighted_insert _ _ i d d' w); [| by rewrite get_chars | done].
  pose proof (salt_range i w Hw). pose proof (digit_range d Hd).
  pose proof (digit_range d' Hd').
  apply mod11_sep; [lia | lia | lia |].
  intros Hdig. apply Hne. apply digit_inj. lia.
Qed.

Lemma is_valid_cid_detects_substitution_witness :
  is_valid_cid (Aux.set_char 3 "9" "11010519491231002X") = ([], Ok false).
Proof.
  apply (is_valid_cid_detects_substitution "11010519491231002X" 3 "1" "9");
    [reflexivity | reflexivity | lia | reflexivity | reflexivity | discriminate].
Defined.

(** X5: an identifier of 18 characters that [is_valid_cid] accepts is
    rejected once two neighbouring digits among the first 17, if they
    differ, are exchanged. *)
Theorem is_valid_cid_detects_transposition (cid : string) (i : nat) (d1 d2 : ascii) :
  String.length cid = 18%nat ->
  snd (is_valid_cid cid) = Ok true ->
  (i < 16)%nat ->
  String.get i cid = Some d1 ->
  String.get (S i) cid = Some d2 ->
  d1 <> d2 ->
  is_valid_cid (Aux.set_char i d2 (Aux.set_char (S i) d1 cid)) = ([], Ok false).
Proof.
  intros Hlen Hvalid Hi Hget1 Hget2 Hne.
  destruct (split_last cid 17 Hlen) as (body & c & -> & Hbody).
  rewrite (is_valid_cid_split body c Hbody) in Hvalid. simpl in Hvalid.
  pose proof (check_body_ok_digits body c true Hbody Hvalid) as Hall.
  rewrite get_append_l in Hget1, Hget2 by lia.
  rewrite <- get_chars in Hget1, Hget2.
  assert (Spec.is_digit d1 = true /\ Spec.is_digit d2 = true) as [Hd1 Hd2].
  { rewrite Forall_lookup in Hall. split; [apply (Hall i) | apply (Hall (S i))]; done. }
  rewrite !set_char_append_l by (rewrite ?length_set_char; lia).
  rewrite is_valid_cid_split by (by rewrite !length_set_char).
  f_equal. apply (check_body_other_sum body); [done | done | |].
  { rewrite !chars_set_char by (rewrite ?length_set_char; lia).
    apply Forall_insert; [|done]. by apply Forall_insert. }
  destruct (lookup_lt_is_Some_2 salt i) as [w Hw]; [simpl; lia|].
  destruct (lookup_lt_is_Some_2 salt (S i)) as [w' Hw']; [simpl; lia|].
  unfold Aux.wsum. rewrite !chars_set_char by (rewrite ?length_set_char; lia).
  rewrite (weighted_insert _ _ i d1 d2 w); [| | done].
  2:{ rewrite list_lookup_insert_ne by lia. done. }
  rewrite (weighted_insert _ _ (S i) d2 d1 w'); [| done | done].
  pose proof (salt_range i w Hw). pose proof (salt_range (S i) w' Hw').
  pose proof (salt_adjacent i w w' Hw Hw').
  pose proof (digit_range d1 Hd1). pose proof (digit_range d2 Hd2).
  replace (Py.sum (zip_with (fun c w => Spec.digit c * w) (chars body) salt)
           + (Spec.digit d1 - Spec.digit d2) * w'
           + (Spec.digit d2 - Spec.digit d1) * w)
    with (Py.sum (zip_with (fun c w => Spec.digit c * w) (chars body) salt)
          + (Spec.digit d2 - Spec.digit d1) * (w - w')) by lia.
  apply mod11_sep; [lia | lia | lia |].
  intros Hdig. apply Hne. apply digit_inj. lia.
Qed.

Lemma is_valid_cid_detects_transposition_witness :
  is_valid_cid (Aux.set_char 6 "9" (Aux.set_char 7 "1" "11010519491231002X"))
  = ([], Ok false).
Proof.
  apply (is_valid_cid_detects_transposition "11010519491231002X" 6 "1" "9");
    [reflexivity | reflexivity | lia | reflexivity | reflexivity | discriminate].
Defined.

(** ** Gender and birthday on other inputs *)

Lemma str_index_out s i : len s <= i -> str_index s i = Raise IndexError.
Proof.
  intros Hi. pose proof (len_nonneg s). unfold str_index.
  destruct (Z.ltb_spec i 0); [lia|].
  destruct (Z.ltb_spec i (len s)); [lia|]. by rewrite andb_false_r.
Qed.

(** X6: an identifier of fewer than 15 characters, the empty string
    included, has no gender character: [extract_gender] raises
    [IndexError]. *)
Theorem extract_gender_short (cid : string) :
  (String.length cid < 15)%nat ->
  extract_gender cid = Raise IndexError.
Proof.
  intros Hlen. unfold extract_gender.
  destruct (Z.eqb_spec (len cid) 18) as [H18|_]; [unfold len in H18; lia|].
  rewrite str_index_out; [done | unfold len; lia].
Qed.

Lemma extract_gender_short_witness :
  extract_gender "" = Raise IndexError /\ extract_gender "36073086010111" = Raise IndexError.
Proof.
  split.
  - apply (extract_gender_short ""). simpl. lia.
  - apply (extract_gender_short "36073086010111"). simpl. lia.
Defined.

Lemma extract_gender_at_14 (cid : string) (c : ascii) :
  String.length cid <> 18%nat ->
  String.get 14 cid = Some c ->
  Spec.is_digit c = true ->
  extract_gender cid = Ok (if Z.odd (Spec.digit c) then "男" else "女").
Proof.
  intros Hlen Hget Hc. unfold extract_gender.
  destruct (Z.eqb_spec (len cid) 18) as [H18|_]; [unfold len in H18; lia|].
  rewrite (str_index_get cid 14 c); [| lia | done].
  simpl. rewrite (int_digit c Hc). simpl.
  rewrite Zmod_odd. by destruct (Z.odd (Spec.digit c)).
Qed.

Lemma extract_gender_at_16 (cid : string) (c : ascii) :
  String.length cid = 18%nat ->
  String.get 16 cid = Some c ->
  Spec.is_digit c = true ->
  extract_gender cid = Ok (if Z.odd (Spec.digit c) then "男" else "女").
Proof.
  intros Hlen Hget Hc. unfold extract_gender, len. rewrite Hlen.
  simpl (_ =? _). rewrite (str_index_get cid 16 c); [| lia | done].
  simpl. rewrite (int_digit c Hc). simpl.
  rewrite Zmod_odd. by destruct (Z.odd (Spec.digit c)).
Qed.

(** X7: whatever its length other than 18 (16, 17, 19 or more as well as
    15), an identifier has its gender read at index 14. *)
Theorem extract_gender_not_18 (cid : string) (c : ascii) :
  String.length cid <> 18%nat ->
  String.get 14 cid = Some c ->
  Spec.is_digit c = true ->
  extract_gender cid = Ok (if Z.odd (Spec.digit c) then "男" else "女").
Proof. apply extract_gender_at_14. Qed.

Lemma extract_gender_not_18_witness :
  extract_gender "3607301986010121119" = Ok "女".
Proof.
  apply (extract_gender_not_18 "3607301986010121119" "2"); [simpl; lia | done | done].
Defined.

(** X8: when the character at the gender position is not a decimal digit,
    [extract_gender] raises [ValueError]. *)
Theorem extract_gender_non_digit (cid : string) (c : ascii) :
  String.get (if decide (String.length cid = 18%nat) then 16 else 14) cid = Some c ->
  Spec.is_digit c = false ->
  extract_gender cid = Raise ValueError.
Proof.
  intros Hget Hc. unfold extract_gender.
  destruct (Z.eqb_spec (len cid) 18) as [H18|H18]; unfold len in H18;
    case_decide; try lia.
  - rewrite (str_index_get cid 16 c); [| lia | done].
    simpl. by rewrite (int_not_digit c Hc).
  - rewrite (str_index_get cid 14 c); [| lia | done].
    simpl. by rewrite (int_not_digit c Hc).
Qed.

Lemma extract_gender_non_digit_witness :
  extract_gender "36073019860101111X" = Ok "男"
  /\ extract_gender "3607301986010111X1" = Raise ValueError.
Proof.
  split; [reflexivity|].
  apply (extract_gender_non_digit "3607301986010111X1" "X"); reflexivity.
Defined.

(** X9: on every identifier whose length is not 18 (the empty string,
    the 15-digit identifiers, 19 characters or more) [extract_birthday]
    raises [TypeError]. *)
Theorem extract_birthday_other_lengths (cid : string) :
  String.length cid <> 18%nat -> extract_birthday cid = Raise TypeError.
Proof. apply extract_birthday_not_18. Qed.

Lemma extract_birthday_other_lengths_witness :
  extract_birthday "" = Raise TypeError
  /\ extract_birthday "3607301986010111111" = Raise TypeError.
Proof.
  split.
  - apply (extract_birthday_other_lengths ""). simpl. lia.
  - apply (extract_birthday_other_lengths "3607301986010111111"). simpl. lia.
Defined.

Lemma extract_birthday_18_ok (cid : string) :
  String.length cid = 18%nat -> exists b, extract_birthday cid = Ok b.
Proof.
  intros Hlen. unfold extract_birthday, len. rewrite Hlen. simpl (_ =? _).
  by eexists.
Qed.

(** ** The heap around [extract_region] *)

Section heap_extras.

Import Heap IdParser.

Implicit Types (self : IdParser.t) (h later : heap) (row tbl : dict).

Lemma extract_region_keeps self cid h r h' :
  extract_region self cid h = (r, h') ->
  forall l, is_Some (h !! l) -> h' !! l = h !! l.
Proof.
  intros Hrun l Hl.
  assert (l <> fresh (dom h)) as Hne.
  { intros ->. rewrite fresh_None in Hl. by destruct Hl. }
  revert Hrun.
  unfold extract_region, try_except, dict_getitem, dict_copy, dict_pop,
    Heap.bind, deref, new_dict, ret, raise.
  repeat (case_match; simplify_eq/=); intros; simplify_eq/=;
    rewrite ?lookup_insert_ne by done; done.
Qed.

(** X10: whatever its outcome, [extract_region] leaves every dictionary
    that exists before the call as it is: the table and its rows are only
    read. *)
Theorem extract_region_frame self cid h r h' :
  extract_region self cid h = (r, h') ->
  forall l, is_Some (h !! l) -> h' !! l = h !! l.
Proof. apply extract_region_keeps. Qed.

(** X11: a row without the ['id'] field makes the [KeyError] of
    [d.pop('id')] leave [extract_region] as it is, not as an
    [IdParserError]; the copy made of the row stays in the heap. *)
Theorem extract_region_row_without_key self cid h row :
  table_row self h (str_slice cid 0 6) = Some row ->
  row !! "id" = None ->
  extract_region self cid h
  = (Raise (KeyError "id"), <[fresh (dom h) := row]> h).
Proof.
  intros (tbl & l & Htbl & Hcode & Hrow)%table_row_Some Hid.
  unfold extract_region, try_except, dict_getitem, dict_copy, dict_pop,
    Heap.bind, deref, new_dict, ret, raise.
  rewrite Htbl, Hcode, Hrow. simpl.
  by rewrite lookup_insert_eq, Hid.
Qed.

Lemma table_ok_frame info h later :
  (forall l, is_Some (h !! l) -> later !! l = h !! l) ->
  table_ok info h -> table_ok info later.
Proof.
  intros Hsame (tbl & Htbl & Hrows). exists tbl.
  split; [by rewrite Hsame by (by eexists)|].
  intros code v Hv. destruct (Hrows code v Hv) as (l & row & -> & Hne & Hrow & Hid).
  exists l, row. by rewrite Hsame by (by eexists).
Qed.

(** X12: a resolver built from a table whose header starts with ['id']
    answers every identifier, in the heap it was built in and in every
    later heap that keeps the objects of that heap, with the fields of a row
    in a new dictionary or with [IdParserError('ID Error')]: no other
    exception comes out of [extract_region]. *)
Theorem init_extract_region_outcomes ks rows h0 self h later cid :
  __init__ (("id" :: ks) :: rows) h0 = (Ok self, h) ->
  (forall l, is_Some (h !! l) -> later !! l = h !! l) ->
  (exists row,
      table_row self later (str_slice cid 0 6) = Some row
      /\ extract_region self cid later
         = (Ok (fresh (dom later)), <[fresh (dom later) := delete "id" row]> later))
  \/ extract_region self cid later = (Raise (IdParserError "ID Error"), later).
Proof.
  intros Hinit Hsame.
  pose proof (table_ok_frame _ _ _ Hsame (init_table_ok _ _ _ _ _ Hinit)) as Hok.
  destruct (table_row self later (str_slice cid 0 6)) as [row|] eqn:Hrow.
  - left. exists row. split; [done|].
    apply extract_region_found; [done|]. by apply (table_ok_row self later (str_slice cid 0 6) row).
  - right. destruct Hok as (tbl & Htbl & Hrows).
    apply (extract_region_not_found self cid later tbl); [done|].
    destruct (tbl !! str_slice cid 0 6) as [v|] eqn:Hv; [|done].
    destruct (Hrows _ v Hv) as (l & row & -> & _ & Hl & _).
    unfold table_row in Hrow. rewrite Htbl in Hrow. simpl in Hrow.
    rewrite Hv in Hrow. simpl in Hrow. congruence.
Qed.

End heap_extras.

(** ** The constructor and the table it builds *)

Section init_extras.

Import Heap IdParser.

Implicit Types (self : IdParser.t) (h : heap) (tbl : dict)
  (keys values : list string) (reader rows : list (list string)).

Lemma fresh_ne h l : is_Some (h !! l) -> l <> fresh (dom h).
Proof. intros [d Hd] ->. by rewrite fresh_None in Hd. Qed.

(** One row of the comprehension, on a table the heap holds. *)
Lemma fill_step info keys first rest reader h tbl :
  h !! info = Some tbl ->
  fill info keys ((first :: rest) :: reader) h
  = fill info keys reader
      (<[info := <[first := VRef (fresh (dom h))]> tbl]>
         (<[fresh (dom h) := Aux.row_dict keys (first :: rest)]> h)).
Proof.
  intros Htbl. simpl.
  cbv beta iota zeta delta [Heap.bind lift new_dict dict_setitem deref].
  rewrite lookup_insert_ne by (apply not_eq_sym, fresh_ne; by eexists).
  by rewrite Htbl.
Qed.

Lemma fill_empty_row info keys reader h tbl :
  h !! info = Some tbl ->
  In [] reader ->
  fst (fill info keys reader h) = Raise IndexError.
Proof.
  revert h tbl. induction reader as [|values reader IH]; intros h tbl Htbl Hin;
    [done|].
  destruct values as [|first rest]; [done|].
  destruct Hin as [|Hin]; [done|].
  rewrite (fill_step _ _ _ _ _ _ tbl Htbl).
  apply (IH _ (<[first := VRef (fresh (dom h))]> tbl)); [|done].
  apply lookup_insert_eq.
Qed.

(** X13: a row without fields (what an empty line of the file gives) makes
    the constructor raise [IndexError]. *)
Theorem init_empty_row keys rows h :
  In [] rows ->
  fst (__init__ (keys :: rows) h) = Raise IndexError.
Proof.
  intros Hin. simpl. unfold Heap.bind at 1, new_dict.
  pose proof (fill_empty_row (fresh (dom h)) keys rows
                (<[fresh (dom h) := ∅]> h) ∅ (lookup_insert_eq _ _ _) Hin) as H.
  unfold Heap.bind.
  destruct (fill _ _ _ _) as [[[]|e] h']; simpl in *; congruence.
Qed.

Lemma init_empty_row_witness :
  fst (__init__ [["id"; "province"]; ["360730"; "P"]; []; ["360731"; "Q"]] ∅)
  = Raise IndexError.
Proof. apply init_empty_row. simpl. tauto. Defined.

Lemma table_row_at info h code :
  table_row {| info_dict := info |} h code
  = (tbl ← h !! info; v ← tbl !! code;
     match v with VRef l => h !! l | VStr _ => None end).
Proof. done. Qed.

Lemma fill_spec info keys reader h :
  Aux.refs_ok info h ->
  Forall (fun values => values <> []) reader ->
  exists h',
    fill info keys reader h = (Ok tt, h')
    /\ (forall l, l <> info -> is_Some (h !! l) -> h' !! l = h !! l)
    /\ forall code,
         table_row {| info_dict := info |} h' code
         = match Aux.find_row code reader with
           | Some values => Some (Aux.row_dict keys values)
           | None => table_row {| info_dict := info |} h code
           end.
Proof.
  intros Hok Hrows. revert h Hok.
  induction Hrows as [|values reader Hvalues _ IH]; intros h Hok.
  { exists h. by repeat split. }
  destruct values as [|first rest]; [done|]. clear Hvalues.
  destruct Hok as (tbl & Htbl & Hrefs).
  rewrite (fill_step _ _ _ _ _ _ tbl Htbl).
  set (l := fresh (dom h)).
  set (h2 := <[info := <[first := VRef l]> tbl]>
               (<[l := Aux.row_dict keys (first :: rest)]> h)).
  assert (l <> info) as Hl by (apply not_eq_sym, fresh_ne; by eexists).
  assert (forall l0, l0 <> info -> is_Some (h !! l0) -> h2 !! l0 = h !! l0) as Hframe.
  { intros l0 Hne Hl0. unfold h2.
    rewrite lookup_insert_ne by done.
    rewrite lookup_insert_ne; [done|]. apply not_eq_sym, fresh_ne, Hl0. }
  destruct (IH h2) as (h' & Hfill & Hsame & Hlook).
  { exists (<[first := VRef l]> tbl). split; [apply lookup_insert_eq|].
    intros code v Hv. destruct (decide (first = code)) as [->|Hcode].
    - rewrite lookup_insert_eq in Hv. simplify_eq. exists l. split; [done|].
      split; [done|]. unfold h2.
      rewrite lookup_insert_ne, lookup_insert_eq by done. by eexists.
    - rewrite lookup_insert_ne in Hv by done.
      destruct (Hrefs code v Hv) as (l0 & -> & Hne & Hl0).
      exists l0. split; [done|]. split; [done|]. by rewrite Hframe. }
  exists h'. split; [done|]. split.
  { intros l0 Hne Hl0. rewrite Hsame; [by apply Hframe | done |].
    by rewrite Hframe. }
  intros code. rewrite Hlook. cbn [Aux.find_row].
  destruct (Aux.find_row code reader) as [found|]; [done|].
  rewrite !table_row_at. rewrite Htbl.
  assert (h2 !! info = Some (<[first := VRef l]> tbl)) as -> by apply lookup_insert_eq.
  cbn [mbind option_bind].
  destruct (decide (first = code)) as [->|Hcode].
  - rewrite lookup_insert_eq. cbn [mbind option_bind]. unfold h2.
    by rewrite lookup_insert_ne, lookup_insert_eq by done.
  - rewrite lookup_insert_ne by done.
    destruct (tbl !! code) as [v|] eqn:Hv; [|done]. cbn [mbind option_bind].
    destruct (Hrefs code v Hv) as (l0 & -> & Hne & Hl0). by apply Hframe.
Qed.

(** X14: on a table whose rows all have a first field, the constructor
    succeeds, changes no dictionary that existed, and the table it builds
    holds, for every code, the dictionary of the last row that starts with
    that code, and nothing for a code no row starts with. *)
Theorem init_table keys rows h :
  Forall (fun values => values <> []) rows ->
  exists self h',
    __init__ (keys :: rows) h = (Ok self, h')
    /\ (forall l, is_Some (h !! l) -> h' !! l = h !! l)
    /\ forall code,
         table_row self h' code
         = Aux.row_dict keys <$> Aux.find_row code rows.
Proof.
  intros Hrows.
  destruct (fill_spec (fresh (dom h)) keys rows (<[fresh (dom h) := ∅]> h))
    as (h' & Hfill & Hsame & Hlook); [|done|].
  { exists ∅. split; [apply lookup_insert_eq|]. intros code v Hv.
    by rewrite lookup_empty in Hv. }
  exists {| info_dict := fresh (dom h) |}, h'. split.
  { simpl. unfold Heap.bind at 1, new_dict. unfold Heap.bind.
    by rewrite Hfill. }
  split.
  { intros l Hl. pose proof (fresh_ne h l Hl) as Hne.
    rewrite Hsame; [by rewrite lookup_insert_ne | done |].
    by rewrite lookup_insert_ne. }
  intros code. rewrite Hlook.
  destruct (Aux.find_row code rows); [done|].
  rewrite table_row_at, lookup_insert_eq. simpl. by rewrite lookup_empty.
Qed.

Lemma init_table_witness :
  exists self h',
    __init__ (["id"; "city"] :: [["360730"; "old"]; ["360730"; "new"]]) ∅
    = (Ok self, h')
    /\ (forall l, is_Some ((∅ : heap) !! l) -> h' !! l = (∅ : heap) !! l)
    /\ forall code,
         table_row self h' code
         = Aux.row_dict ["id"; "city"]
             <$> Aux.find_row code [["360730"; "old"]; ["360730"; "new"]].
Proof.
  apply (init_table ["id"; "city"] [["360730"; "old"]; ["360730"; "new"]] ∅).
  repeat constructor; discriminate.
Defined.

Lemma fold_insert_other (pairs : list (string * val)) (acc : dict) k :
  k ∉ pairs.*1 ->
  fold_left (fun d kv => <[fst kv := snd kv]> d) pairs acc !! k = acc !! k.
Proof.
  revert acc. induction pairs as [|[k0 v0] pairs IH]; intros acc Hk; [done|].
  simpl in *. apply not_elem_of_cons in Hk as [Hne Hk].
  rewrite IH by done. by rewrite lookup_insert_ne.
Qed.

Lemma fst_combine_subset {A B} (l : list A) (k : list B) x :
  x ∈ (combine l k).*1 -> x ∈ l.
Proof.
  revert k. induction l as [|a l IH]; intros [|b k] Hx; simpl in *;
    try by apply elem_of_nil in Hx.
  apply elem_of_cons in Hx as [->|Hx]; [left | right; by apply (IH k)].
Qed.

Lemma row_lookup keys (vals : list val) (acc : dict) i k :
  NoDup keys ->
  keys !! i = Some k ->
  fold_left (fun d kv => <[fst kv := snd kv]> d) (combine keys vals) acc !! k
  = match vals !! i with Some v => Some v | None => acc !! k end.
Proof.
  intros Hnd. revert vals acc i.
  induction Hnd as [|k0 keys Hk0 Hnd IH]; intros vals acc i Hi; [done|].
  destruct vals as [|v0 vals].
  { simpl. by destruct i. }
  simpl. destruct i as [|i]; simpl in *.
  - simplify_eq. rewrite fold_insert_other; [apply lookup_insert_eq|].
    intros Hin. apply Hk0. by apply (fst_combine_subset _ vals).
  - rewrite (IH vals _ i Hi). destruct (vals !! i); [done|].
    apply lookup_insert_ne. intros ->. apply Hk0.
    by apply list_elem_of_lookup_2 in Hi.
Qed.

(** X15: under a header without repeated names, the dictionary of a row
    maps the name of column [i] to the field [i] of the row; a row that is
    too short has no entry for the columns it lacks. *)
Theorem row_dict_columns keys values i k :
  NoDup keys ->
  keys !! i = Some k ->
  Aux.row_dict keys values !! k = VStr <$> values !! i.
Proof.
  intros Hnd Hi. unfold Aux.row_dict, dict_of_pairs, Py.zip.
  rewrite (row_lookup keys _ _ i k Hnd Hi), list_lookup_fmap.
  by destruct (values !! i).
Qed.

Lemma row_dict_columns_witness :
  Aux.row_dict ["id"; "province"; "city"] ["360730"; "P"] !! "province"
  = VStr <$> ["360730"; "P"] !! 1%nat
  /\ Aux.row_dict ["id"; "province"; "city"] ["360730"; "P"] !! "city"
     = VStr <$> ["360730"; "P"] !! 2%nat.
Proof.
  assert (NoDup ["id"; "province"; "city"]) as Hnd.
  { apply (bool_decide_unpack _). reflexivity. }
  split.
  - by apply (row_dict_columns ["id"; "province"; "city"] ["360730"; "P"] 1 "province").
  - by apply (row_dict_columns ["id"; "province"; "city"] ["360730"; "P"] 2 "city").
Defined.

End init_extras.

(** ** parse on its failure paths *)

Section parse_extras.

Import Heap IdParser.

Implicit Types (self : IdParser.t) (h : heap) (tbl : dict).






(** X17: whatever its outcome, [parse] leaves every dictionary that
    exists before the call as it is. *)
Theorem parse_frame self cid h r h' :
  parse self cid h = (r, h') ->
  forall l, is_Some (h !! l) -> h' !! l = h !! l.
Proof.
  unfold parse, Heap.bind, lift, new_dict. intros Hrun l Hl.
  destruct (extract_gender cid) as [g|e]; [|by simplify_eq].
  destruct (extract_birthday cid) as [b|e]; [|by simplify_eq].
  destruct (extract_region self cid h) as [[d|e] h1] eqn:Hregion.
  - simplify_eq. pose proof (extract_region_keeps _ _ _ _ _ Hregion l Hl) as Hsame.
    rewrite lookup_insert_ne; [done|].
    intros <-. rewrite fresh_None in Hsame. rewrite <- Hsame in Hl. by destruct Hl.
  - simplify_eq. by apply (extract_region_keeps _ _ _ _ _ Hregion).
Qed.

Lemma parse_frame_witness :
  snd (parse doc_parser "360730198601011111" doc_heap) !! 2%positive
  = doc_heap !! 2%positive.
Proof.
  apply (parse_frame doc_parser "360730198601011111" doc_heap
           (fst (parse doc_parser "360730198601011111" doc_heap))).
  - by destruct (parse doc_parser "360730198601011111" doc_heap).
  - exists doc_row. reflexivity.
Defined.

(** X18: on an identifier of 18 characters with a digit at index 16 and
    a region code the table does not hold, [parse] raises
    [IdParserError('ID Error')] and leaves the heap as it was. *)
Theorem parse_unknown_region self cid h tbl c :
  String.length cid = 18%nat ->
  String.get 16 cid = Some c ->
  Spec.is_digit c = true ->
  h !! info_dict self = Some tbl ->
  tbl !! str_slice cid 0 6 = None ->
  parse self cid h = (Raise (IdParserError "ID Error"), h).
Proof.
  intros Hlen Hget Hc Htbl Hcode. unfold parse, Heap.bind, lift.
  rewrite (extract_gender_at_16 cid c Hlen Hget Hc).
  destruct (extract_birthday_18_ok cid Hlen) as [b ->].
  by rewrite (extract_region_not_found self cid h tbl).
Qed.

Lemma parse_unknown_region_witness :
  parse doc_parser "999999198601011111" doc_heap
  = (Raise (IdParserError "ID Error"), doc_heap).
Proof.
  apply (parse_unknown_region doc_parser "999999198601011111" doc_heap
           {[ "360730" := VRef 2%positive ]} "1"); reflexivity.
Defined.

Lemma extract_region_frame_witness :
  snd (extract_region doc_parser "360730198601011111" doc_heap) !! 2%positive
  = doc_heap !! 2%positive.
Proof.
  apply (extract_region_frame doc_parser "360730198601011111" doc_heap
           (fst (extract_region doc_parser "360730198601011111" doc_heap))).
  - by destruct (extract_region doc_parser "360730198601011111" doc_heap).
  - exists doc_row. reflexivity.
Defined.

Lemma extract_region_row_without_key_witness :
  extract_region doc_parser "360730198601011111"
    (<[2%positive := {[ "province" := VStr "P" ]}]> doc_heap)
  = (Raise (KeyError "id"),
     <[fresh (dom (<[2%positive := {[ "province" := VStr "P" ]}]> doc_heap))
         := {[ "province" := VStr "P" ]}]>
       (<[2%positive := {[ "province" := VStr "P" ]}]> doc_heap)).
Proof.
  apply (extract_region_row_without_key doc_parser "360730198601011111"
           (<[2%positive := {[ "province" := VStr "P" ]}]> doc_heap)
           {[ "province" := VStr "P" ]}); reflexivity.
Defined.

Lemma init_extract_region_outcomes_witness :
  (exists row,
      table_row doc_parser doc_heap (str_slice "360730198601011111" 0 6) = Some row
      /\ extract_region doc_parser "360730198601011111" doc_heap
         = (Ok (fresh (dom doc_heap)),
            <[fresh (dom doc_heap) := delete "id" row]> doc_heap))
  \/ extract_region doc_parser "360730198601011111" doc_heap
     = (Raise (IdParserError "ID Error"), doc_heap).
Proof.
  apply (init_extract_region_outcomes ["province"; "city"; "district"]
           [["360730"; "江西省"; "赣州市"; "宁都县"]] ∅ doc_parser doc_heap doc_heap).
  - exact init_doc_table.
  - done.
Defined.

End parse_extras.
